(** * A shallow embedding of the [log] package (log.go)

    The package wraps the standard library logger.  Everything the package
    itself decides is modelled here: the release-type check of the
    constructor, the escalation policy of [Critical] and [Severe], the
    debug gate of the [Debug*] methods, [Logger.Close], and the
    [closeableFile] wrapper with its [closed] flag.

    What the package calls but does not define is kept abstract:
    - the time stamp and caller location the standard logger puts in front
      of a line, and [fmt.Sprintf] on a caller-supplied format
      (class [Platform]);
    - the operations of [os.File] (class [FileSystem]); every call made on
      the file is recorded, so that "was the file closed" is observable.

    Execution is sequential: the [sync.RWMutex] of [closeableFile] is taken
    and released inside each method and has no effect on a single thread,
    so it is not part of the state. *)

From Stdlib Require Import String Ascii Strings.Byte ZArith NArith List Bool Lia.
From Stdlib Require Import DecimalString.
Import ListNotations.

Local Open Scope string_scope.

(** ** Results of running Go code: a normal return or a panic *)

(** A computation over a state [St] either returns a value or panics with
    a payload.  All panics of this package carry a string. *)
Inductive Outcome (St A : Type) : Type :=
| Returned (a : A) (st : St)
| Panicked (payload : string) (st : St).

Arguments Returned {St A} a st.
Arguments Panicked {St A} payload st.

Definition M (St A : Type) : Type := St -> Outcome St A.

Definition ret {St A} (a : A) : M St A := fun st => Returned a st.

Definition bind {St A B} (m : M St A) (k : A -> M St B) : M St B :=
  fun st =>
    match m st with
    | Returned a st' => k a st'
    | Panicked p st' => Panicked p st'
    end.

Definition panic {St A} (payload : string) : M St A :=
  fun st => Panicked payload st.

Declare Scope go_scope.
Delimit Scope go_scope with go.
Notation "x <- m ;; k" := (bind m (fun x => k))
  (at level 100, m at next level, right associativity) : go_scope.
Notation "m ;;; k" := (bind m (fun _ => k))
  (at level 100, right associativity) : go_scope.
Local Open Scope go_scope.

Definition panics {St A} (r : Outcome St A) : bool :=
  match r with Panicked _ _ => true | Returned _ _ => false end.

Definition final_state {St A} (r : Outcome St A) : St :=
  match r with Returned _ st => st | Panicked _ st => st end.

(** ** Values, errors and the [fmt] functions the package uses *)

(** Go's [error] values, identified by their message. *)
Record error : Type := mkError { Error : string }.

(** Operands of the variadic [v ...interface{}] parameters.  A string
    operand matters to [fmt.Sprint], which leaves out the space next to
    one; any other operand is carried with its [%v] rendering. *)
Inductive value : Type :=
| VString (s : string)
| VInt (z : Z)
| VBool (b : bool)
| VOther (rendering : string).

Definition nl : string := String (ascii_of_nat 10) EmptyString.

Definition render (x : value) : string :=
  match x with
  | VString s => s
  | VInt z => NilZero.string_of_int (Z.to_int z)
  | VBool true => "true"
  | VBool false => "false"
  | VOther r => r
  end.

Definition isString (x : value) : bool :=
  match x with VString _ => true | _ => false end.

(** [fmt.Sprintln]: operands in [%v] form, a space between any two of
    them, and a newline at the end. *)
Fixpoint joinSpace (v : list value) : string :=
  match v with
  | [] => ""
  | [x] => render x
  | x :: rest => render x ++ " " ++ joinSpace rest
  end.

Definition Sprintln (v : list value) : string := joinSpace v ++ nl.

(** [fmt.Sprint]: a space is added between two operands when neither is a
    string. *)
Fixpoint doPrint (prevString : bool) (first : bool) (v : list value) : string :=
  match v with
  | [] => ""
  | x :: rest =>
      (if negb first && negb (isString x) && negb prevString then " " else "")
        ++ render x ++ doPrint (isString x) false rest
  end.

Definition Sprint (v : list value) : string := doPrint false true v.

(** [fmt.Errorf] on the one format the package uses, ["...: %v"] with a
    string operand. *)
Definition Errorf_invalidReleaseType (s : string) : error :=
  mkError ("invalid ReleaseType provided: " ++ s).

(** ** The process-wide state the package touches *)

(** What reaches the standard error stream: [debug.PrintStack] prints the
    stack of the running goroutine there, [os.Stderr.WriteString] a text. *)
Inductive StderrItem : Type :=
| StackTrace
| StderrText (s : string).

(** The state: the standard error stream and the state [S] of the sink the
    logger writes to. *)
Record World (S : Type) : Type := mkWorld {
  stderr : list StderrItem;
  sink : S
}.

Arguments mkWorld {S} stderr sink.
Arguments stderr {S} w.
Arguments sink {S} w.

Definition PrintStack {S} : M (World S) unit :=
  fun w => Returned tt (mkWorld (stderr w ++ [StackTrace]) (sink w)).

(** The result of [os.Stderr.WriteString] is discarded by every caller. *)
Definition Stderr_WriteString {S} (s : string) : M (World S) unit :=
  fun w => Returned tt (mkWorld (stderr w ++ [StderrText s]) (sink w)).

(** ** ReleaseType *)

(** [type ReleaseType uint]: an unsigned machine integer.  The package
    only compares it with its four constants and never computes with it,
    so no wrap-around is involved. *)
Definition ReleaseType : Type := N.

Definition ReleaseTypeError : ReleaseType := 0%N.
Definition Release : ReleaseType := 1%N.
Definition Dev : ReleaseType := 2%N.
Definition Testing : ReleaseType := 3%N.

Module ReleaseTypeM.

(** [func (rt ReleaseType) String() string] *)
Definition String {St} (rt : ReleaseType) : M St string :=
  if (rt =? ReleaseTypeError)%N then panic "uninitialized release type"
  else if (rt =? Release)%N then ret "release"
  else if (rt =? Dev)%N then ret "dev"
  else if (rt =? Testing)%N then ret "testing"
  else panic "unknown release type".

(** How [fmt] prints a [ReleaseType] under [%s]: it calls the [String]
    method and, when that panics, recovers and prints the panic in the
    form [%!s(PANIC=String method: ...)] instead of propagating it. *)
Definition format_s (rt : ReleaseType) : string :=
  match String rt tt with
  | Returned s _ => s
  | Panicked p _ => "%!s(PANIC=String method: " ++ p ++ ")"
  end.

End ReleaseTypeM.

(** ** Options *)

Module Options.

Record t : Type := mk {
  BinaryName : string;
  BugReportURL : string;
  Debug : bool;
  Release : ReleaseType;
  Version : string
}.

(** [fmt.Sprintf("(%v v%v, Release: %s)", o.BinaryName, o.Version, o.Release)] *)
Definition BuildInfoString (o : t) : string :=
  "(" ++ BinaryName o ++ " v" ++ Version o ++ ", Release: "
    ++ ReleaseTypeM.format_s (Release o) ++ ")".

(** [func (o *Options) Critical(v ...interface{})] *)
Definition Critical {S} (o : t) (v : list value) : M (World S) unit :=
  let s := "Critical error: " ++ BuildInfoString o ++ " " ++ Sprintln v
             ++ "Please submit a bug report here: " ++ BugReportURL o ++ nl in
  (if negb (Release o =? Testing)%N
   then (PrintStack ;;; Stderr_WriteString s)
   else ret tt) ;;;
  (if Debug o then panic s else ret tt).

End Options.

(** ** Sinks: [io.Writer], optionally an [io.Closer] *)

(** A sink is used through its [Write] method only; [io_Closer] is the
    result of the type assertion [w.(io.Closer)]: the [Close] method when
    the dynamic type has one. A method of a sink may panic. *)
Record Writer (S : Type) : Type := mkWriter {
  io_Write : list byte -> M (World S) (Z * option error);
  io_Closer : option (M (World S) (option error))
}.

Arguments mkWriter {S} io_Write io_Closer.
Arguments io_Write {S} w b.
Arguments io_Closer {S} w.

(** [ioutil.Discard]: every write succeeds and goes nowhere; no [Close]. *)
Definition Discard {S} : Writer S :=
  mkWriter (fun b => ret (Z.of_nat (List.length b), None)) None.

(** [*bytes.Buffer]: a write appends to the buffer; no [Close]. *)
Definition Buffer : Writer (list byte) :=
  mkWriter
    (fun b w => Returned (Z.of_nat (List.length b), None)
                         (mkWorld (stderr w) (sink w ++ b)%list))
    None.

(** ** The standard library logger, [log.Logger] *)

(** What the standard logger reads from its environment to build the
    header of a line, and [fmt.Sprintf] on a format chosen by the caller.
    The text of a header plays no part in what the package decides, so
    one reading of the clock stands for all. *)
Class Platform : Type := {
  (** date and time in the layout the flags select *)
  timestamp : Z -> string;
  (** [file:line: ] of the frame [calldepth] levels up *)
  caller : Z -> Z -> string;
  Sprintf : string -> list value -> string
}.

Definition Ldate : Z := Z.shiftl 1 0.
Definition Ltime : Z := Z.shiftl 1 1.
Definition Lmicroseconds : Z := Z.shiftl 1 2.
Definition Llongfile : Z := Z.shiftl 1 3.
Definition Lshortfile : Z := Z.shiftl 1 4.
Definition LUTC : Z := Z.shiftl 1 5.
Definition Lmsgprefix : Z := Z.shiftl 1 6.

Module StdLogger.

Record t (S : Type) : Type := New {
  out : Writer S;
  prefix : string;
  flag : Z
}.

Arguments New {S} out prefix flag.
Arguments out {S} _.
Arguments prefix {S} _.
Arguments flag {S} _.

Section WithPlatform.
Context `{Platform} {S : Type}.

Definition formatHeader (l : t S) (calldepth : Z) : string :=
  (if Z.land (flag l) Lmsgprefix =? 0 then prefix l else "")%Z
    ++ (if (Z.land (flag l) (Z.lor Ldate (Z.lor Ltime Lmicroseconds)) =? 0)%Z
        then "" else timestamp (flag l))
    ++ (if (Z.land (flag l) (Z.lor Lshortfile Llongfile) =? 0)%Z
        then "" else caller (flag l) calldepth)
    ++ (if Z.land (flag l) Lmsgprefix =? 0 then "" else prefix l)%Z.

(** [len(s) == 0 || s[len(s)-1] != '\n'] *)
Fixpoint lacksNewline (s : string) : bool :=
  match s with
  | EmptyString => true
  | String c EmptyString => negb (Ascii.eqb c (ascii_of_nat 10))
  | String _ rest => lacksNewline rest
  end.

(** The line [Output] hands to the sink. *)
Definition line (l : t S) (calldepth : Z) (s : string) : list byte :=
  list_byte_of_string
    (formatHeader l calldepth ++ s ++ (if lacksNewline s then nl else "")).

(** [func (l *Logger) Output(calldepth int, s string) error]: one
    [Write] on the sink; its error is the result. *)
Definition Output (l : t S) (calldepth : Z) (s : string)
  : M (World S) (option error) :=
  r <- io_Write (out l) (line l calldepth s) ;;
  ret (snd r).

(** [func (l *Logger) Println(v ...interface{})], promoted to the
    package's [Logger] by embedding. *)
Definition Println (l : t S) (v : list value) : M (World S) unit :=
  Output l 2 (Sprintln v) ;;; ret tt.

End WithPlatform.

End StdLogger.

(** ** Logger *)

Module Logger.

(** [Logger struct { *log.Logger; staticW io.Writer; staticOptions Options }] *)
Record t (S : Type) : Type := mk {
  log_Logger : StdLogger.t S;
  staticW : Writer S;
  staticOptions : Options.t
}.

Arguments mk {S} log_Logger staticW staticOptions.
Arguments log_Logger {S} _.
Arguments staticW {S} _.
Arguments staticOptions {S} _.

Section WithPlatform.
Context `{Platform} {S : Type}.

(** [Output] of the embedded standard logger. *)
Definition Output (l : t S) := StdLogger.Output (log_Logger l).

(** [func (l *Logger) BuildInfoString() string] *)
Definition BuildInfoString (l : t S) : string :=
  Options.BuildInfoString (staticOptions l).

(** [func (l *Logger) Close() error] *)
Definition Close (l : t S) : M (World S) (option error) :=
  err <- Output l 2 "SHUTDOWN: Logging has terminated." ;;
  match io_Closer (staticW l) with
  | Some c_Close => c_Close
  | None => ret err
  end.

(** [func (l *Logger) Critical(v ...interface{})] *)
Definition Critical (l : t S) (v : list value) : M (World S) unit :=
  Output l 2 ("CRITICAL: " ++ Sprintln v) ;;;
  Options.Critical (staticOptions l) v.

(** [func (l *Logger) Debug(v ...interface{})] *)
Definition Debug (l : t S) (v : list value) : M (World S) unit :=
  if Options.Debug (staticOptions l)
  then (Output l 2 (Sprint v) ;;; ret tt)
  else ret tt.

(** [func (l *Logger) Debugf(format string, v ...interface{})] *)
Definition Debugf (l : t S) (format : string) (v : list value)
  : M (World S) unit :=
  if Options.Debug (staticOptions l)
  then (Output l 2 (Sprintf format v) ;;; ret tt)
  else ret tt.

(** [func (l *Logger) Debugln(v ...interface{})] *)
Definition Debugln (l : t S) (v : list value) : M (World S) unit :=
  if Options.Debug (staticOptions l)
  then (Output l 2 ("[DEBUG] " ++ Sprintln v) ;;; ret tt)
  else ret tt.

(** [func (l *Logger) Errorf(format string, v ...interface{})] *)
Definition Errorf (l : t S) (format : string) (v : list value)
  : M (World S) unit :=
  Output l 2 ("[ERROR] " ++ Sprintf format v) ;;; ret tt.

(** [func (l *Logger) Errorln(v ...interface{})] *)
Definition Errorln (l : t S) (v : list value) : M (World S) unit :=
  Output l 2 ("[ERROR] " ++ Sprintln v) ;;; ret tt.

(** [func (l *Logger) Severe(v ...interface{})] *)
Definition Severe (l : t S) (v : list value) : M (World S) unit :=
  Output l 2 ("SEVERE: " ++ Sprintln v) ;;;
  let s := "Severe error: " ++ BuildInfoString l ++ " " ++ Sprintln v in
  (if negb (Options.Release (staticOptions l) =? Testing)%N
   then (PrintStack ;;; Stderr_WriteString s)
   else ret tt) ;;;
  (if Options.Debug (staticOptions l) then panic s else ret tt).

End WithPlatform.

End Logger.

Section Constructors.
Context `{Platform} {S : Type}.

(** [func NewLogger(w io.Writer, options Options)], returning a
    [Logger] pointer (nil on failure) and an [error].
    The operand of [fmt.Errorf] is the explicit call
    [options.Release.String()], evaluated before [fmt.Errorf] runs. *)
Definition NewLogger (w : Writer S) (options : Options.t)
  : M (World S) (option (Logger.t S) * option error) :=
  let rt := Options.Release options in
  if (rt =? Release)%N || (rt =? Dev)%N || (rt =? Testing)%N then
    let message := "STARTUP: Logging has started. "
                     ++ Options.BinaryName options ++ " Version "
                     ++ Options.Version options in
    let l := StdLogger.New w ""
               (Z.lor Ldate (Z.lor Ltime (Z.lor Lmicroseconds
                  (Z.lor Lshortfile LUTC)))) in
    err <- StdLogger.Output l 3 message ;;
    match err with
    | Some e => ret (None, Some e)
    | None => ret (Some (Logger.mk l w options), None)
    end
  else
    s <- ReleaseTypeM.String rt ;;
    ret (None, Some (Errorf_invalidReleaseType s)).

(** [func newDiscardLogger() *Logger] *)
Definition newDiscardLogger : Logger.t S :=
  let w := Discard in
  let l := StdLogger.New w "" 0%Z in
  let options := Options.mk "discard" "" true Testing "0" in
  Logger.mk l w options.

(** [var DiscardLogger = newDiscardLogger()] *)
Definition DiscardLogger : Logger.t S := newDiscardLogger.

End Constructors.

(** ** [os.File] *)

(** The file operations are the operating system's.  They are total
    functions on an abstract handle state: each returns the Go result and
    the next handle state, and none of them panics. *)
Class FileSystem : Type := {
  OSFile : Type;
  os_Write : list byte -> OSFile -> (Z * option error) * OSFile;
  os_Sync : OSFile -> option error * OSFile;
  os_Close : OSFile -> option error * OSFile
}.

(** The calls made on a file, oldest first. *)
Inductive FileCall : Type :=
| CallWrite (b : list byte)
| CallSync
| CallClose.

Module osFile.

Section WithFileSystem.
Context `{FileSystem}.

Record t : Type := mk {
  handle : OSFile;
  calls : list FileCall
}.

Definition Write (b : list byte) (f : t) : (Z * option error) * t :=
  let '(r, h) := os_Write b (handle f) in
  (r, mk h (calls f ++ [CallWrite b])).

Definition Sync (f : t) : option error * t :=
  let '(r, h) := os_Sync (handle f) in
  (r, mk h (calls f ++ [CallSync])).

Definition Close (f : t) : option error * t :=
  let '(r, h) := os_Close (handle f) in
  (r, mk h (calls f ++ [CallClose])).

End WithFileSystem.

End osFile.

(** ** closeableFile *)

Module closeableFile.

Section WithFileSystem.
Context `{FileSystem}.

(** [closeableFile struct { *os.File; closed bool; staticOptions Options;
    mu sync.RWMutex }] *)
Record t : Type := mk {
  File : osFile.t;
  closed : bool;
  staticOptions : Options.t
}.

(** A method of the embedded file, run on [cf.File]. *)
Definition onFile {A} (method : osFile.t -> A * osFile.t) : M (World t) A :=
  fun w =>
    let cf := sink w in
    let '(a, f) := method (File cf) in
    Returned a (mkWorld (stderr w) (mk f (closed cf) (staticOptions cf))).

(** [cf.closed = true] *)
Definition markClosed : M (World t) unit :=
  fun w =>
    let cf := sink w in
    Returned tt (mkWorld (stderr w) (mk (File cf) true (staticOptions cf))).

(** [func (cf *closeableFile) Close() error] *)
Definition Close : M (World t) (option error) :=
  fun w =>
    ((if closed (sink w)
      then Options.Critical (staticOptions (sink w))
             [VString "cannot close the file; already closed"]
      else ret tt) ;;;
     err <- onFile osFile.Sync ;;
     match err with
     | Some e => ret (Some e)
     | None => markClosed ;;; onFile osFile.Close
     end) w.

(** [func (cf *closeableFile) Write(b []byte) (int, error)] *)
Definition Write (b : list byte) : M (World t) (Z * option error) :=
  fun w =>
    ((if closed (sink w)
      then Options.Critical (staticOptions (sink w))
             [VString "cannot write to the file after it has been closed"]
      else ret tt) ;;;
     onFile (osFile.Write b)) w.

(** A [*closeableFile] as a sink: it is an [io.Writer] and an
    [io.Closer]. *)
Definition asWriter : Writer t := mkWriter Write (Some Close).

(** Operations a client can perform on a [closeableFile]. *)
Inductive Op : Type :=
| OpWrite (b : list byte)
| OpClose.

(** The state after one operation.  A panic that is recovered leaves
    the state it was raised in. *)
Definition step (w : World t) (op : Op) : World t :=
  match op with
  | OpWrite b => final_state (Write b w)
  | OpClose => final_state (Close w)
  end.

Definition run (ops : list Op) (w : World t) : World t :=
  fold_left step ops w.

End WithFileSystem.

End closeableFile.

Section FileConstructor.
Context `{Platform} `{FileSystem}.

(** [func NewFileLogger(logFilename string, options Options)], after
    [os.OpenFile] has returned [logFile] without error: the sink is the
    fresh [closeableFile{File: logFile, staticOptions: options}]. *)
Definition NewFileLogger_opened (logFile : OSFile) (options : Options.t)
  (err_stream : list StderrItem)
  : Outcome (World closeableFile.t)
            (option (Logger.t closeableFile.t) * option error) :=
  let cf := closeableFile.mk (osFile.mk logFile []) false options in
  NewLogger closeableFile.asWriter options (mkWorld err_stream cf).

End FileConstructor.

(** ** Concrete instances, for running the definitions *)

(** An in-memory file: writes append, and a flush fails while
    [syncError] is set.  After the handle is closed every operation fails
    with [os.ErrClosed]. *)
Record MemFile : Type := mkMemFile {
  data : list byte;
  isOpen : bool;
  syncError : option error
}.

Definition ErrClosed : error := mkError "file already closed".

#[export] Instance memFS : FileSystem := {|
  OSFile := MemFile;
  os_Write := fun b f =>
    if isOpen f
    then ((Z.of_nat (List.length b), None),
          mkMemFile (data f ++ b)%list true (syncError f))
    else ((0%Z, Some ErrClosed), f);
  os_Sync := fun f =>
    if isOpen f then (syncError f, f) else (Some ErrClosed, f);
  os_Close := fun f =>
    if isOpen f
    then (None, mkMemFile (data f) false (syncError f))
    else (Some ErrClosed, f)
|}.

(** [fmt.Sprintf] for formats made of text, [%v] and [%%], with one
    operand for each [%v]. *)
Fixpoint simpleSprintf (format : string) (v : list value) : string :=
  match format with
  | String "%" (String "v" rest) =>
      match v with
      | x :: v' => render x ++ simpleSprintf rest v'
      | [] => "%!v(MISSING)" ++ simpleSprintf rest []
      end
  | String "%" (String "%" rest) => "%" ++ simpleSprintf rest v
  | String c rest => String c (simpleSprintf rest v)
  | EmptyString => ""
  end.

(** A fixed clock and call site. *)
Definition fixedPlatform : Platform := {|
  timestamp := fun _ => "2009/11/10 23:00:00.000000 ";
  caller := fun _ _ => "log.go:128: ";
  Sprintf := simpleSprintf
|}.

(** Options, loggers and files to run the definitions on. *)

Definition exampleOptions (debug : bool) (release : ReleaseType) : Options.t :=
  Options.mk "test" "https://example.org/issues" debug release "0.0.1".

Definition emptyBuffer : World (list byte) := mkWorld [] [].

(** The logger [NewLogger] returns for an in-memory buffer. *)
Definition bufferLogger (debug : bool) : Logger.t (list byte) :=
  Logger.mk (StdLogger.New Buffer "" 55%Z) Buffer (exampleOptions debug Testing).

(** A [closeableFile] that has been closed once already. *)
Definition closedFile (debug : bool) (release : ReleaseType)
  : World closeableFile.t :=
  mkWorld []
    (closeableFile.mk
       (osFile.mk (mkMemFile [] false None) [CallSync; CallClose])
       true (exampleOptions debug release)).

(** An open [closeableFile] whose flush fails. *)
Definition failingSyncFile (debug : bool) : World closeableFile.t :=
  mkWorld []
    (closeableFile.mk
       (osFile.mk (mkMemFile [] true (Some (mkError "input/output error"))) [])
       false (exampleOptions debug Dev)).

(** The payload of the escalation for a one-string message. *)
Definition misusePayload (o : Options.t) (message : string) : string :=
  "Critical error: " ++ Options.BuildInfoString o ++ " " ++ message ++ nl
    ++ "Please submit a bug report here: " ++ Options.BugReportURL o ++ nl.

(** ** The file-backed logger *)

Section FileLogger.
Context `{FileSystem}.

(** The state [NewFileLogger] runs [NewLogger] in: the file just opened,
    wrapped with [closed] false. *)
Definition freshFile (logFile : OSFile) (options : Options.t)
  (err_stream : list StderrItem) : World closeableFile.t :=
  mkWorld err_stream
    (closeableFile.mk (osFile.mk logFile []) false options).

(** The logger [NewLogger] builds over a [closeableFile]. *)
Definition fileLogger (options : Options.t) : Logger.t closeableFile.t :=
  Logger.mk
    (StdLogger.New closeableFile.asWriter ""
       (Z.lor Ldate (Z.lor Ltime (Z.lor Lmicroseconds
          (Z.lor Lshortfile LUTC)))))
    closeableFile.asWriter options.

(** What [NewFileLogger] comes to: [os.OpenFile] failed and its error is
    returned, or the file was opened and [NewLogger] ran. *)
Inductive FileLoggerResult : Type :=
| OpenFailed (err : error)
| Opened (r : Outcome (World closeableFile.t)
                (option (Logger.t closeableFile.t) * option error)).

(** [func NewFileLogger(logFilename string, options Options)].
    [open_result] is what
    [os.OpenFile(logFilename, os.O_WRONLY|os.O_CREATE|os.O_APPEND, 0660)]
    returned. *)
Definition NewFileLogger `{Platform}
  (open_result : OSFile * option error) (options : Options.t)
  (err_stream : list StderrItem) : FileLoggerResult :=
  match open_result with
  | (_, Some err) => OpenFailed err
  | (logFile, None) =>
      Opened (NewFileLogger_opened logFile options err_stream)
  end.

End FileLogger.

(** A [closeableFile] over a file just opened, whose flush succeeds. *)
Definition openFile (debug : bool) (release : ReleaseType)
  : World closeableFile.t :=
  freshFile (mkMemFile [] true None) (exampleOptions debug release) [].

(** * Properties *)

(** ** Strings and the monad *)

Lemma append_assoc (a b c : string) : (a ++ b) ++ c = a ++ b ++ c.
Proof.
  induction a as [|x a IH]; simpl; [reflexivity | now rewrite IH].
Qed.

Lemma lacksNewline_append_nl (s : string) :
  StdLogger.lacksNewline (s ++ nl) = false.
Proof.
  induction s as [|c s IH]; [reflexivity |].
  simpl. destruct (s ++ nl) eqn:E; [| exact IH].
  destruct s; discriminate E.
Qed.

(** A message that ends in [fmt.Sprintln] output already ends with a
    newline, so [Output] adds none. *)
Lemma line_Sprintln `{Platform} {S : Type}
  (l : StdLogger.t S) (calldepth : Z) (p : string) (v : list value) :
  StdLogger.line l calldepth (p ++ Sprintln v)
  = list_byte_of_string (StdLogger.formatHeader l calldepth ++ p ++ Sprintln v).
Proof.
  unfold StdLogger.line, Sprintln.
  rewrite <- (append_assoc p), lacksNewline_append_nl.
  rewrite !append_assoc. reflexivity.
Qed.

Lemma app_cons_neq {A} (l : list A) (x : A) (rest : list A) :
  l <> (l ++ x :: rest)%list.
Proof.
  intros E. apply (f_equal (@List.length A)) in E.
  rewrite length_app in E. simpl in E. lia.
Qed.

Lemma bind_run {St A B} (m : M St A) (k : A -> M St B) (st : St) :
  bind m k st
  = match m st with
    | Returned a st' => k a st'
    | Panicked p st' => Panicked p st'
    end.
Proof. reflexivity. Qed.

Ltac go_unfold :=
  unfold bind, ret, panic, PrintStack, Stderr_WriteString in *; simpl in *.

(** The tail shared by [Options.Critical] and [Logger.Severe]: report on
    standard error unless testing, then panic if debugging. *)
Lemma escalation_run {S : Type}
  (rt : ReleaseType) (d : bool) (s : string) (w : World S) :
  let w' := if (rt =? Testing)%N then w
            else mkWorld (stderr w ++ [StackTrace; StderrText s]) (sink w) in
  ((if negb (rt =? Testing)%N
    then (PrintStack ;;; Stderr_WriteString s)
    else ret tt) ;;;
   (if d then panic s else ret tt)) w
  = if d then Panicked s w' else Returned tt w'.
Proof.
  go_unfold.
  destruct (rt =? Testing)%N, d; simpl; rewrite <- ?app_assoc; reflexivity.
Qed.

Lemma escalation_facts {S : Type}
  (rt : ReleaseType) (d : bool) (s : string) (w : World S)
  (r : Outcome (World S) unit) :
  r = (if d
       then Panicked s
              (if (rt =? Testing)%N then w
               else mkWorld (stderr w ++ [StackTrace; StderrText s]) (sink w))
       else Returned tt
              (if (rt =? Testing)%N then w
               else mkWorld (stderr w ++ [StackTrace; StderrText s]) (sink w))) ->
  sink (final_state r) = sink w
  /\ (stderr (final_state r) = (stderr w ++ [StackTrace; StderrText s])%list
      <-> rt <> Testing)
  /\ (stderr (final_state r) = stderr w <-> rt = Testing)
  /\ (r = Panicked s (final_state r) <-> d = true)
  /\ (r = Returned tt (final_state r) <-> d = false).
Proof.
  intros ->.
  destruct (N.eqb_spec rt Testing) as [E|E]; destruct d; simpl;
    repeat split; intros; try congruence; try reflexivity;
    try (exfalso; eapply app_cons_neq; eassumption);
    try (exfalso; eapply app_cons_neq; symmetry; eassumption).
Qed.

(** What [Options.Critical] does, case by case. *)
Lemma Options_Critical_run {S : Type}
  (o : Options.t) (v : list value) (w : World S) :
  let s := "Critical error: " ++ Options.BuildInfoString o ++ " "
             ++ Sprintln v ++ "Please submit a bug report here: "
             ++ Options.BugReportURL o ++ nl in
  let w' := if (Options.Release o =? Testing)%N then w
            else mkWorld (stderr w ++ [StackTrace; StderrText s]) (sink w) in
  Options.Critical o v w
  = if Options.Debug o then Panicked s w' else Returned tt w'.
Proof.
  unfold Options.Critical. cbv zeta. apply escalation_run.
Qed.

(** ** C3: the Critical escalation *)

(** C3. [Options.Critical] builds the payload ["Critical error: "], the
    build-info string, a space, the operands joined by spaces with a
    newline, ["Please submit a bug report here: "], the bug-report URL and
    a newline.  It prints a stack trace and writes the payload to standard
    error exactly when the release type is not [Testing], and it panics,
    with that payload, exactly when the debug flag is set; otherwise it
    returns.  [Logger.Critical] first hands the line
    [header ++ "CRITICAL: " ++ message] to the sink and then does the same
    escalation; a panic of the sink's [Write] propagates. *)
Theorem Critical_escalation `{Platform} {S : Type} :
  (forall (o : Options.t) (v : list value) (w : World S),
      let s := "Critical error: " ++ Options.BuildInfoString o ++ " "
                 ++ Sprintln v ++ "Please submit a bug report here: "
                 ++ Options.BugReportURL o ++ nl in
      let diag := (stderr w ++ [StackTrace; StderrText s])%list in
      let r := Options.Critical o v w in
      sink (final_state r) = sink w
      /\ (stderr (final_state r) = diag <-> Options.Release o <> Testing)
      /\ (stderr (final_state r) = stderr w <-> Options.Release o = Testing)
      /\ (r = Panicked s (final_state r) <-> Options.Debug o = true)
      /\ (r = Returned tt (final_state r) <-> Options.Debug o = false))
  /\
  (forall (l : Logger.t S) (v : list value) (w : World S),
      match io_Write (StdLogger.out (Logger.log_Logger l))
              (list_byte_of_string
                 (StdLogger.formatHeader (Logger.log_Logger l) 2
                    ++ "CRITICAL: " ++ Sprintln v)) w with
      | Returned _ w1 =>
          Logger.Critical l v w = Options.Critical (Logger.staticOptions l) v w1
      | Panicked p w1 => Logger.Critical l v w = Panicked p w1
      end).
Proof.
  split.
  - intros o v w s diag r.
    apply (escalation_facts (Options.Release o) (Options.Debug o) s w r).
    apply Options_Critical_run.
  - intros l v w.
    unfold Logger.Critical, Logger.Output, StdLogger.Output.
    rewrite line_Sprintln. go_unfold.
    destruct (io_Write _ _ w) as [[n e] w1|p w1]; reflexivity.
Qed.

(** ** C5: Severe *)

(** C5. [Logger.Severe] hands the line [header ++ "SEVERE: " ++ message]
    to the sink.  Once that write has returned, it prints a stack trace
    and writes the summary ["Severe error: "], build-info string, space,
    message (no bug-report text) to standard error exactly when the
    release type is not [Testing], and it panics with that summary
    exactly when the debug flag is set; otherwise it returns.  A panic of
    the sink's [Write] propagates. *)
Theorem Severe_escalation `{Platform} {S : Type}
  (l : Logger.t S) (v : list value) (w : World S) :
  let o := Logger.staticOptions l in
  let s := "Severe error: " ++ Logger.BuildInfoString l ++ " " ++ Sprintln v in
  let r := Logger.Severe l v w in
  match io_Write (StdLogger.out (Logger.log_Logger l))
          (list_byte_of_string
             (StdLogger.formatHeader (Logger.log_Logger l) 2
                ++ "SEVERE: " ++ Sprintln v)) w with
  | Panicked p w1 => r = Panicked p w1
  | Returned _ w1 =>
      sink (final_state r) = sink w1
      /\ (stderr (final_state r)
          = (stderr w1 ++ [StackTrace; StderrText s])%list
          <-> Options.Release o <> Testing)
      /\ (stderr (final_state r) = stderr w1 <-> Options.Release o = Testing)
      /\ (r = Panicked s (final_state r) <-> Options.Debug o = true)
      /\ (r = Returned tt (final_state r) <-> Options.Debug o = false)
  end.
Proof.
  intros o s r. subst r.
  unfold Logger.Severe, Logger.Output, StdLogger.Output.
  rewrite line_Sprintln.
  rewrite 2 bind_run.
  destruct (io_Write _ _ w) as [[n e] w1|p w1]; [| reflexivity].
  unfold ret at 1. cbv beta iota.
  apply (escalation_facts (Options.Release o) (Options.Debug o) s w1).
  apply escalation_run.
Qed.

(** ** C6: Logger.Close *)

(** C6. [Logger.Close] hands the line
    [header ++ "SHUTDOWN: Logging has terminated." ++ newline] to the
    sink.  When that write has returned with error [err]: if the sink is
    an [io.Closer], the result of [Close] is the result of the sink's own
    [Close], run next, and [err] is dropped; otherwise the result is
    [err].  A panic of the sink's [Write] propagates. *)
Theorem Close_writes_shutdown_then_closes `{Platform} {S : Type}
  (l : Logger.t S) (w : World S) :
  match io_Write (StdLogger.out (Logger.log_Logger l))
          (list_byte_of_string
             (StdLogger.formatHeader (Logger.log_Logger l) 2
                ++ "SHUTDOWN: Logging has terminated." ++ nl)) w with
  | Panicked p w1 => Logger.Close l w = Panicked p w1
  | Returned (_, err) w1 =>
      match io_Closer (Logger.staticW l) with
      | Some sink_Close => Logger.Close l w = sink_Close w1
      | None => Logger.Close l w = Returned err w1
      end
  end.
Proof.
  unfold Logger.Close, Logger.Output, StdLogger.Output, StdLogger.line.
  unfold bind, ret. cbn [StdLogger.lacksNewline].
  destruct (io_Write _ _ w) as [[n e] w1|p w1]; [| reflexivity].
  cbn [snd]. destruct (io_Closer (Logger.staticW l)); reflexivity.
Qed.

Example NewLogger_on_buffer :
  @NewLogger fixedPlatform _ Buffer (exampleOptions true Testing) emptyBuffer
  = Returned (Some (bufferLogger true), None)
      (mkWorld []
         (list_byte_of_string
            ("2009/11/10 23:00:00.000000 log.go:128: "
               ++ "STARTUP: Logging has started. test Version 0.0.1" ++ nl))).
Proof. reflexivity. Qed.

(** ** C4: the Debug methods *)

(** C4, as stated, fails for [Debug]: with the debug flag set,
    [Debug("hello")] writes [header ++ "hello" ++ newline]; what follows
    the header does not start with [[DEBUG]]. *)
Lemma Debug_line_lacks_DEBUG_prefix :
  let l := bufferLogger true in
  let r := @Logger.Debug fixedPlatform _ l [VString "hello"] emptyBuffer in
  Options.Debug (Logger.staticOptions l) = true
  /\ r = Returned tt
           (mkWorld []
              (list_byte_of_string
                 ("2009/11/10 23:00:00.000000 log.go:128: hello" ++ nl)))
  /\ ~ (exists rest : string,
           sink (final_state r)
           = list_byte_of_string
               (@StdLogger.formatHeader fixedPlatform _ (Logger.log_Logger l) 2
                  ++ "[DEBUG]" ++ rest)).
Proof.
  cbv zeta. split; [reflexivity | split; [reflexivity |]].
  intros [rest E]. vm_compute in E. discriminate E.
Qed.

(** C4, amended.  With the debug flag unset, [Debug], [Debugf] and
    [Debugln] return at once and leave the state as it was.  With the flag
    set, each makes one write to the sink: [Debugln] writes
    [header ++ "[DEBUG] " ++ fmt.Sprintln(v...)]; [Debug] writes
    [header ++ fmt.Sprint(v...)] and [Debugf] writes
    [header ++ fmt.Sprintf(format, v...)], both without a [[DEBUG]]
    prefix and with a newline added when the message does not end in one. *)
Theorem Debug_methods `{Platform} {S : Type}
  (l : Logger.t S) (format : string) (v : list value) (w : World S) :
  let out := StdLogger.out (Logger.log_Logger l) in
  let header := StdLogger.formatHeader (Logger.log_Logger l) 2 in
  let with_newline := fun s : string =>
    s ++ (if StdLogger.lacksNewline s then nl else "") in
  (Options.Debug (Logger.staticOptions l) = false ->
   Logger.Debug l v w = Returned tt w
   /\ Logger.Debugf l format v w = Returned tt w
   /\ Logger.Debugln l v w = Returned tt w)
  /\
  (Options.Debug (Logger.staticOptions l) = true ->
   Logger.Debugln l v w
   = (io_Write out
        (list_byte_of_string (header ++ "[DEBUG] " ++ Sprintln v)) ;;;
      ret tt) w
   /\ Logger.Debug l v w
      = (io_Write out
           (list_byte_of_string (header ++ with_newline (Sprint v))) ;;;
         ret tt) w
   /\ Logger.Debugf l format v w
      = (io_Write out
           (list_byte_of_string
              (header ++ with_newline (Sprintf format v))) ;;;
         ret tt) w).
Proof.
  cbv zeta.
  unfold Logger.Debug, Logger.Debugf, Logger.Debugln, Logger.Output,
    StdLogger.Output.
  split; intros ->.
  - repeat split.
  - rewrite line_Sprintln. unfold StdLogger.line.
    rewrite !bind_run.
    destruct (io_Write _ _ w) as [[? ?] ?|? ?];
      destruct (io_Write _ _ w) as [[? ?] ?|? ?];
      destruct (io_Write _ _ w) as [[? ?] ?|? ?]; repeat split.
Qed.

Lemma Debug_methods_witness :
  (@Logger.Debug fixedPlatform _ (bufferLogger false) [VInt 1; VInt 2]
     emptyBuffer = Returned tt emptyBuffer)
  /\ @Logger.Debugln fixedPlatform _ (bufferLogger true) [VInt 1; VInt 2]
       emptyBuffer
     = Returned tt
         (mkWorld []
            (list_byte_of_string
               ("2009/11/10 23:00:00.000000 log.go:128: [DEBUG] 1 2" ++ nl))).
Proof.
  split.
  - apply (@Debug_methods fixedPlatform _ (bufferLogger false) ""
             [VInt 1; VInt 2] emptyBuffer).
    reflexivity.
  - rewrite (proj1 (proj2 (@Debug_methods fixedPlatform _ (bufferLogger true) ""
                             [VInt 1; VInt 2] emptyBuffer) eq_refl)).
    reflexivity.
Defined.

(** ** C9: the discard logger *)

(** C9. [DiscardLogger] has the debug flag set and release type
    [Testing]; a write to its sink changes nothing.  [Critical] on it
    panics, whatever the message, with the payload
    ["Critical error: (discard v0, Release: testing) "] followed by the
    message and the (empty-URL) bug-report line, and leaves standard error
    and the sink untouched. *)
Theorem DiscardLogger_Critical_panics `{Platform} {S : Type}
  (v : list value) (w : World S) :
  Options.Debug (Logger.staticOptions (@DiscardLogger S)) = true
  /\ Options.Release (Logger.staticOptions (@DiscardLogger S)) = Testing
  /\ (forall b : list byte,
         final_state (io_Write (Logger.staticW (@DiscardLogger S)) b w) = w
         /\ final_state
              (io_Write (StdLogger.out (Logger.log_Logger (@DiscardLogger S)))
                 b w) = w)
  /\ Logger.Critical DiscardLogger v w
     = Panicked
         ("Critical error: (discard v0, Release: testing) " ++ Sprintln v
            ++ "Please submit a bug report here: " ++ nl)
         w.
Proof.
  split; [reflexivity | split; [reflexivity | split]].
  - intros b. split; reflexivity.
  - unfold Logger.Critical, Logger.Output, StdLogger.Output.
    rewrite 2 bind_run.
    cbn [DiscardLogger newDiscardLogger Logger.log_Logger Logger.staticOptions
         StdLogger.out Discard io_Write].
    unfold ret at 1 2. cbv beta iota.
    rewrite Options_Critical_run. reflexivity.
Qed.

(** ** C1 and C2: the release type at construction *)

(** C1, as stated, fails: with release type 4 (none of the four
    constants) [NewLogger] panics with ["unknown release type"]; it
    returns nothing, so no error reaches the caller. *)
Lemma NewLogger_unknown_release_panics :
  let r := @NewLogger fixedPlatform _ Buffer (exampleOptions false 4%N)
             emptyBuffer in
  r = Panicked "unknown release type" emptyBuffer
  /\ ~ (exists res w', r = Returned res w').
Proof.
  cbv zeta. split; [reflexivity |].
  intros (res & w' & E). discriminate E.
Qed.

(** C1, amended.  For every release type other than the four constants
    (that is, above [Testing]), [NewLogger] panics with
    ["unknown release type"], whatever the debug flag, before anything is
    written to the sink. *)
Theorem NewLogger_unknown_release `{Platform} {S : Type}
  (sink_w : Writer S) (options : Options.t) (w : World S) :
  (Testing < Options.Release options)%N ->
  NewLogger sink_w options w = Panicked "unknown release type" w.
Proof.
  unfold Testing. intros Hrt. unfold NewLogger, ReleaseTypeM.String.
  unfold ReleaseTypeError, Release, Dev, Testing.
  repeat match goal with
         | |- context [(?a =? ?b)%N] =>
             destruct (N.eqb_spec a b); [lia |]
         end.
  reflexivity.
Qed.

Lemma NewLogger_unknown_release_witness :
  (Testing < Options.Release (exampleOptions true 7%N))%N
  /\ @NewLogger fixedPlatform _ Buffer (exampleOptions true 7%N) emptyBuffer
     = Panicked "unknown release type" emptyBuffer.
Proof.
  split; [reflexivity |].
  apply (@NewLogger_unknown_release fixedPlatform _ Buffer
           (exampleOptions true 7%N) emptyBuffer).
  reflexivity.
Defined.

(** C2. With the uninitialized release type [ReleaseTypeError],
    [NewLogger] panics with ["uninitialized release type"] whatever the
    debug flag and the other options are; nothing is written and no error
    is returned. *)
Theorem NewLogger_uninitialized_release `{Platform} {S : Type}
  (sink_w : Writer S) (options : Options.t) (w : World S) :
  Options.Release options = ReleaseTypeError ->
  NewLogger sink_w options w = Panicked "uninitialized release type" w
  /\ ~ (exists res w', NewLogger sink_w options w = Returned res w').
Proof.
  intros Hrt. unfold NewLogger. rewrite Hrt.
  split; [reflexivity |].
  intros (res & w' & E). discriminate E.
Qed.

Lemma NewLogger_uninitialized_release_witness :
  @NewLogger fixedPlatform _ Buffer (exampleOptions false ReleaseTypeError)
    emptyBuffer
  = Panicked "uninitialized release type" emptyBuffer
  /\ @NewLogger fixedPlatform _ Buffer (exampleOptions true ReleaseTypeError)
       emptyBuffer
     = Panicked "uninitialized release type" emptyBuffer.
Proof.
  split.
  - apply (@NewLogger_uninitialized_release fixedPlatform _ Buffer
             (exampleOptions false ReleaseTypeError) emptyBuffer).
    reflexivity.
  - apply (@NewLogger_uninitialized_release fixedPlatform _ Buffer
             (exampleOptions true ReleaseTypeError) emptyBuffer).
    reflexivity.
Defined.

(** ** closeableFile *)

Section CloseableFileFacts.
Context `{FileSystem}.

Import closeableFile.

(** The escalation never touches the sink. *)
Lemma Critical_keeps_sink {S : Type}
  (o : Options.t) (v : list value) (w : World S) :
  sink (final_state (Options.Critical o v w)) = sink w.
Proof.
  rewrite Options_Critical_run.
  destruct (Options.Debug o), (Options.Release o =? Testing)%N; reflexivity.
Qed.

Lemma Critical_panics_iff_debug {S : Type}
  (o : Options.t) (v : list value) (w : World S) :
  panics (Options.Critical o v w) = Options.Debug o.
Proof.
  rewrite Options_Critical_run. destruct (Options.Debug o); reflexivity.
Qed.

(** [Write] leaves the flag as it is. *)
Lemma Write_keeps_closed (b : list byte) (w : World t) :
  closed (sink (final_state (Write b w))) = closed (sink w).
Proof.
  unfold Write. rewrite bind_run.
  destruct (closed (sink w)) eqn:Hc.
  - pose proof (Critical_keeps_sink (staticOptions (sink w))
                  [VString "cannot write to the file after it has been closed"]
                  w) as Hs.
    destruct (Options.Critical _ _ w) as [[] w1|p w1]; simpl in Hs |- *.
    + unfold onFile. rewrite Hs.
      destruct (osFile.Write b (File (sink w))). simpl. exact Hc.
    + rewrite Hs. exact Hc.
  - unfold ret, onFile.
    destruct (osFile.Write b (File (sink w))). simpl. exact Hc.
Qed.

(** [Close] never clears the flag. *)
Lemma Close_keeps_closed (w : World t) :
  closed (sink w) = true ->
  closed (sink (final_state (Close w))) = true.
Proof.
  intros Hc. unfold Close. rewrite Hc, bind_run.
  pose proof (Critical_keeps_sink (staticOptions (sink w))
                [VString "cannot close the file; already closed"] w) as Hs.
  destruct (Options.Critical _ _ w) as [[] w1|p w1]; simpl in Hs |- *.
  - rewrite bind_run. unfold onFile at 1. rewrite Hs.
    destruct (osFile.Sync (File (sink w))) as [[e|] f]; simpl.
    + exact Hc.
    + unfold bind, markClosed, onFile. simpl.
      destruct (osFile.Close f). reflexivity.
  - rewrite Hs. exact Hc.
Qed.

Lemma step_keeps_closed (w : World t) (op : Op) :
  closed (sink w) = true -> closed (sink (step w op)) = true.
Proof.
  intros Hc. destruct op as [b|]; simpl.
  - rewrite Write_keeps_closed. exact Hc.
  - apply Close_keeps_closed. exact Hc.
Qed.

(** C7. Once the [closed] flag of a [closeableFile] is true, it is true
    after every sequence of [Write] and [Close] calls, including calls
    that panic and are recovered. *)
Theorem closed_stays_closed (ops : list Op) (w : World t) :
  closed (sink w) = true -> closed (sink (run ops w)) = true.
Proof.
  unfold run. revert w.
  induction ops as [|op ops IH]; intros w Hc; simpl.
  - exact Hc.
  - apply IH. apply step_keeps_closed. exact Hc.
Qed.

(** C8. On a [closeableFile] whose [closed] flag is true, [Write] and
    [Close] run the Critical escalation with their misuse message, and
    panic exactly when the debug flag is set.  With the flag unset the
    call goes on: [Write] calls the file's [Write] and returns its
    result; [Close] calls the file's [Sync] and, unless that fails,
    the file's [Close], returning the first error or the close result. *)
Theorem misuse_after_close (b : list byte) (w : World t) :
  closed (sink w) = true ->
  let cf := sink w in
  let o := staticOptions cf in
  let h := osFile.handle (File cf) in
  let log := osFile.calls (File cf) in
  let reported := fun message : string =>
    if (Options.Release o =? Testing)%N then stderr w
    else (stderr w ++ [StackTrace; StderrText (misusePayload o message)])%list in
  let write_msg := "cannot write to the file after it has been closed" in
  let close_msg := "cannot close the file; already closed" in
  panics (Write b w) = Options.Debug o
  /\ panics (Close w) = Options.Debug o
  /\ (Options.Debug o = true ->
      Write b w
      = Panicked (misusePayload o write_msg) (mkWorld (reported write_msg) cf)
      /\ Close w
         = Panicked (misusePayload o close_msg)
             (mkWorld (reported close_msg) cf))
  /\ (Options.Debug o = false ->
      Write b w
      = Returned (fst (os_Write b h))
          (mkWorld (reported write_msg)
             (mk (osFile.mk (snd (os_Write b h)) (log ++ [CallWrite b]))
                 true o))
      /\ Close w
         = match os_Sync h with
           | (Some e, h1) =>
               Returned (Some e)
                 (mkWorld (reported close_msg)
                    (mk (osFile.mk h1 (log ++ [CallSync])) true o))
           | (None, h1) =>
               Returned (fst (os_Close h1))
                 (mkWorld (reported close_msg)
                    (mk (osFile.mk (snd (os_Close h1))
                           (log ++ [CallSync; CallClose]))
                        true o))
           end).
Proof.
  intros Hc.
  assert (Hcf : sink w
                = mk (osFile.mk (osFile.handle (File (sink w)))
                        (osFile.calls (File (sink w))))
                     true (staticOptions (sink w))).
  { revert Hc. destruct (sink w) as [[? ?] ? ?]. simpl. now intros ->. }
  assert (Hw : w = mkWorld (stderr w) (sink w)) by (destruct w; reflexivity).
  intros cf o h log reported write_msg close_msg.
  fold cf in Hcf, Hw. fold h in Hcf. fold log in Hcf. fold o in Hcf.
  unfold Write, Close. rewrite Hc. fold cf. fold o.
  rewrite !bind_run, !Options_Critical_run.
  unfold misusePayload, Sprintln, joinSpace, render in *.
  subst reported. cbv beta.
  destruct (Options.Debug o); cbv beta iota zeta.
  - split; [reflexivity | split; [reflexivity | split; [intros _ | discriminate]]].
    destruct (Options.Release o =? Testing)%N; rewrite ?append_assoc, <- ?Hw;
      split; reflexivity.
  - unfold onFile, osFile.Write, osFile.Sync, osFile.Close, markClosed,
      bind, ret.
    destruct (Options.Release o =? Testing)%N; cbn [sink stderr]; fold cf;
      rewrite Hcf; cbn [File closed staticOptions osFile.handle osFile.calls];
      destruct (os_Write b h) as [r1 h1];
      destruct (os_Sync h) as [[e|] h2]; cbn -[String.append];
      try (destruct (os_Close h2) as [r3 h3]; cbn -[String.append]);
      rewrite <- ?app_assoc; cbn -[String.append];
      (split; [reflexivity | split; [reflexivity | split; [discriminate | intros _; split; reflexivity]]]).
Qed.

(** C10. On a [closeableFile] that is not closed, when the file's [Sync]
    fails, [Close] returns that error; the [closed] flag is still
    false, the only call made on the file is [Sync] (the file's [Close]
    is not called), and standard error is untouched.  A [Close] after
    that does not escalate: it neither panics nor reports, whatever the
    debug flag and release type. *)
Theorem Close_sync_failure (w : World t) (e : error) :
  closed (sink w) = false ->
  fst (os_Sync (osFile.handle (File (sink w)))) = Some e ->
  let cf := sink w in
  let w' := mkWorld (stderr w)
              (mk (osFile.mk (snd (os_Sync (osFile.handle (File cf))))
                     (osFile.calls (File cf) ++ [CallSync]))
                  false (staticOptions cf)) in
  Close w = Returned (Some e) w'
  /\ panics (Close w') = false
  /\ stderr (final_state (Close w')) = stderr w.
Proof.
  intros Hc Hs cf w'. subst w' cf. split.
  - unfold Close. rewrite Hc. unfold bind, ret, onFile, osFile.Sync.
    destruct (os_Sync (osFile.handle (File (sink w)))) as [r h1].
    simpl in Hs |- *. subst r. rewrite Hc. reflexivity.
  - unfold Close. cbn [sink closed].
    unfold bind, ret, onFile, osFile.Sync, osFile.Close, markClosed.
    cbn [sink closed File osFile.handle osFile.calls stderr staticOptions].
    destruct (os_Sync (snd (os_Sync (osFile.handle (File (sink w))))))
      as [[e'|] h2]; cbn.
    + split; reflexivity.
    + destruct (os_Close h2); cbn. split; reflexivity.
Qed.

End CloseableFileFacts.

(** ** The closeableFile properties on the in-memory file *)

Lemma closed_stays_closed_witness :
  closeableFile.closed (sink (closedFile false Testing)) = true
  /\ closeableFile.closed
       (sink (closeableFile.run
                [closeableFile.OpWrite ["x"%byte]; closeableFile.OpClose;
                 closeableFile.OpWrite ["y"%byte]]
                (closedFile false Testing))) = true.
Proof.
  split; [reflexivity |].
  apply (closed_stays_closed
           [closeableFile.OpWrite ["x"%byte]; closeableFile.OpClose;
            closeableFile.OpWrite ["y"%byte]]
           (closedFile false Testing)).
  reflexivity.
Defined.

Lemma misuse_after_close_witness :
  panics (closeableFile.Write ["x"%byte] (closedFile true Dev)) = true
  /\ panics (closeableFile.Close (closedFile true Dev)) = true
  /\ closeableFile.Write ["x"%byte] (closedFile false Testing)
     = Returned (0%Z, Some ErrClosed)
         (mkWorld []
            (closeableFile.mk
               (osFile.mk (mkMemFile [] false None)
                  [CallSync; CallClose; CallWrite ["x"%byte]])
               true (exampleOptions false Testing)))
  /\ closeableFile.Close (closedFile false Testing)
     = Returned (Some ErrClosed)
         (mkWorld []
            (closeableFile.mk
               (osFile.mk (mkMemFile [] false None)
                  [CallSync; CallClose; CallSync])
               true (exampleOptions false Testing))).
Proof.
  pose proof (misuse_after_close ["x"%byte] (closedFile true Dev) eq_refl)
    as (Hw & Hc & _).
  pose proof (misuse_after_close ["x"%byte] (closedFile false Testing) eq_refl)
    as (_ & _ & _ & Hgo).
  destruct (Hgo eq_refl) as [Hgw Hgc].
  split; [exact Hw | split; [exact Hc | split; [exact Hgw | exact Hgc]]].
Defined.

Lemma Close_sync_failure_witness :
  closeableFile.Close (failingSyncFile true)
  = Returned (Some (mkError "input/output error"))
      (mkWorld []
         (closeableFile.mk
            (osFile.mk (mkMemFile [] true (Some (mkError "input/output error")))
               [CallSync])
            false (exampleOptions true Dev)))
  /\ panics (closeableFile.Close
               (final_state (closeableFile.Close (failingSyncFile true))))
     = false.
Proof.
  pose proof (Close_sync_failure (failingSyncFile true)
                (mkError "input/output error") eq_refl eq_refl)
    as (Hr & Hp & _).
  split; [exact Hr | exact Hp].
Defined.

(** ** The escalation and [Close] on concrete loggers *)

Lemma Critical_escalation_witness :
  @Logger.Critical fixedPlatform _ (bufferLogger true)
    [VString "a critical message"] emptyBuffer
  = Panicked
      ("Critical error: (test v0.0.1, Release: testing) a critical message"
         ++ nl ++ "Please submit a bug report here: https://example.org/issues"
         ++ nl)
      (mkWorld []
         (list_byte_of_string
            ("2009/11/10 23:00:00.000000 log.go:128: "
               ++ "CRITICAL: a critical message" ++ nl)))
  /\ @Logger.Critical fixedPlatform _ (bufferLogger false)
       [VString "a critical message"] emptyBuffer
     = Returned tt
         (mkWorld []
            (list_byte_of_string
               ("2009/11/10 23:00:00.000000 log.go:128: "
                  ++ "CRITICAL: a critical message" ++ nl))).
Proof.
  split.
  - pose proof (proj2 (@Critical_escalation fixedPlatform (list byte))
                  (bufferLogger true) [VString "a critical message"]
                  emptyBuffer) as E.
    cbv beta iota in E. exact E.
  - pose proof (proj2 (@Critical_escalation fixedPlatform (list byte))
                  (bufferLogger false) [VString "a critical message"]
                  emptyBuffer) as E.
    cbv beta iota in E. exact E.
Defined.

Lemma Severe_escalation_witness :
  let l := Logger.mk (StdLogger.New Buffer "" 55%Z) Buffer
             (exampleOptions true Dev) in
  let s := "Severe error: (test v0.0.1, Release: dev) disk full" ++ nl in
  let r := @Logger.Severe fixedPlatform _ l [VString "disk full"] emptyBuffer in
  stderr (final_state r) = [StackTrace; StderrText s]
  /\ r = Panicked s (final_state r).
Proof.
  cbv zeta.
  pose proof (@Severe_escalation fixedPlatform (list byte)
                (Logger.mk (StdLogger.New Buffer "" 55%Z) Buffer
                   (exampleOptions true Dev))
                [VString "disk full"] emptyBuffer) as E.
  cbv zeta in E.
  destruct E as (_ & Hreport & _ & Hpanic & _).
  split.
  - apply Hreport. discriminate.
  - apply Hpanic. reflexivity.
Defined.

Lemma Close_writes_shutdown_then_closes_witness :
  @Logger.Close fixedPlatform _ (bufferLogger true) emptyBuffer
  = Returned None
      (mkWorld []
         (list_byte_of_string
            ("2009/11/10 23:00:00.000000 log.go:128: "
               ++ "SHUTDOWN: Logging has terminated." ++ nl))).
Proof.
  exact (@Close_writes_shutdown_then_closes fixedPlatform (list byte)
           (bufferLogger true) emptyBuffer).
Defined.

(** ** The package's tests, run on the model *)

(** TestLogger: construct over a file, print one line, close.  The file
    holds the STARTUP line, the printed line and the SHUTDOWN line; it
    was flushed and closed once, after the three writes. *)
Example TestLogger :
  let options := Options.mk "" "" true Testing "0.0.1" in
  match @NewFileLogger_opened fixedPlatform memFS (mkMemFile [] true None)
          options [] with
  | Returned (Some fl, None) w1 =>
      match @StdLogger.Println fixedPlatform _ (Logger.log_Logger fl)
              [VString "TEST: this should get written to the logfile"] w1 with
      | Returned _ w2 =>
          match @Logger.Close fixedPlatform _ fl w2 with
          | Returned err w3 =>
              err = None
              /\ closeableFile.closed (sink w3) = true
              /\ string_of_list_byte
                   (data (osFile.handle (closeableFile.File (sink w3))))
                 = "2009/11/10 23:00:00.000000 log.go:128: "
                     ++ "STARTUP: Logging has started.  Version 0.0.1" ++ nl
                     ++ "2009/11/10 23:00:00.000000 log.go:128: "
                     ++ "TEST: this should get written to the logfile" ++ nl
                     ++ "2009/11/10 23:00:00.000000 log.go:128: "
                     ++ "SHUTDOWN: Logging has terminated." ++ nl
              /\ List.length
                   (osFile.calls (closeableFile.File (sink w3))) = 5%nat
              /\ skipn 3 (osFile.calls (closeableFile.File (sink w3)))
                 = [CallSync; CallClose]
          | Panicked _ _ => False
          end
      | Panicked _ _ => False
      end
  | _ => False
  end.
Proof. vm_compute. repeat split. Qed.

(** TestLoggerWrites. *)
Example TestErrorf :
  string_of_list_byte
    (sink (final_state
             (@Logger.Errorf fixedPlatform _ (bufferLogger false) "%v - %v"
                [VString "test"; VString "message"] emptyBuffer)))
  = "2009/11/10 23:00:00.000000 log.go:128: [ERROR] test - message" ++ nl.
Proof. reflexivity. Qed.

Example TestErrorln :
  string_of_list_byte
    (sink (final_state
             (@Logger.Errorln fixedPlatform _ (bufferLogger false)
                [VString "test"; VString "message"] emptyBuffer)))
  = "2009/11/10 23:00:00.000000 log.go:128: [ERROR] test message" ++ nl.
Proof. reflexivity. Qed.

(** TestLoggerInitializedReleaseType. *)
Example TestLoggerInitializedReleaseType :
  forallb
    (fun releaseType =>
       negb (panics (@NewLogger fixedPlatform _ Buffer
                       (Options.mk "" "" false releaseType "0.0.1")
                       emptyBuffer)))
    [Release; Testing; Dev] = true.
Proof. reflexivity. Qed.

(** * Further properties of the package *)

(** ** ReleaseType.String *)


(** ** NewLogger *)

Section NewLoggerFacts.
Context `{Platform} {S : Type}.

(** The line [NewLogger] writes at start-up. *)
Lemma NewLogger_run (sink_w : Writer S) (options : Options.t) (w : World S) :
  Options.Release options = Release \/ Options.Release options = Dev
  \/ Options.Release options = Testing ->
  let l := StdLogger.New sink_w "" 55%Z in
  NewLogger sink_w options w
  = match io_Write sink_w
            (StdLogger.line l 3
               ("STARTUP: Logging has started. "
                  ++ Options.BinaryName options ++ " Version "
                  ++ Options.Version options)) w with
    | Panicked p w1 => Panicked p w1
    | Returned (_, Some e) w1 => Returned (None, Some e) w1
    | Returned (_, None) w1 =>
        Returned (Some (Logger.mk l sink_w options), None) w1
    end.
Proof.
  intros Hv. cbv zeta. unfold NewLogger.
  assert (Hb : ((Options.Release options =? Release)%N
                || (Options.Release options =? Dev)%N
                || (Options.Release options =? Testing)%N) = true).
  { destruct Hv as [-> | [-> | ->]]; reflexivity. }
  rewrite Hb. unfold StdLogger.Output. rewrite 2 bind_run.
  cbn [StdLogger.out].
  change (Z.lor Ldate (Z.lor Ltime (Z.lor Lmicroseconds
            (Z.lor Lshortfile LUTC)))) with 55%Z.
  destruct (io_Write sink_w _ w) as [[n [e|]] w1|p w1]; reflexivity.
Qed.

(** X2. With a valid release type [NewLogger] makes one write to the sink: the
    header, ["STARTUP: Logging has started. <binary> Version <version>"],
    and a newline unless the version already ends in one.  If that write
    reports an error, the error is returned and no logger; otherwise the
    logger holds the sink and the options as given.  Standard error is
    not written by [NewLogger] itself. *)
Theorem NewLogger_startup
  (sink_w : Writer S) (options : Options.t) (w : World S) :
  Options.Release options = Release \/ Options.Release options = Dev
  \/ Options.Release options = Testing ->
  let l := StdLogger.New sink_w "" 55%Z in
  let message := "STARTUP: Logging has started. "
                   ++ Options.BinaryName options ++ " Version "
                   ++ Options.Version options in
  match io_Write sink_w
          (list_byte_of_string
             (StdLogger.formatHeader l 3 ++ message
                ++ (if StdLogger.lacksNewline message then nl else ""))) w with
  | Panicked p w1 => NewLogger sink_w options w = Panicked p w1
  | Returned (_, Some e) w1 =>
      NewLogger sink_w options w = Returned (None, Some e) w1
  | Returned (_, None) w1 =>
      NewLogger sink_w options w
      = Returned (Some (Logger.mk l sink_w options), None) w1
  end.
Proof.
  intros Hv l message. rewrite (NewLogger_run sink_w options w Hv).
  unfold StdLogger.line. fold message. fold l.
  destruct (io_Write sink_w _ w) as [[n [e|]] w1|p w1]; reflexivity.
Qed.

(** X3. Whenever [NewLogger] returns, the release type was valid and the
    error it returns is the one the sink's [Write] reported for the
    start-up line; a logger is returned exactly when there was none.  In
    particular the ["invalid ReleaseType provided"] error is never
    returned. *)
Theorem NewLogger_returns_only_sink_errors
  (sink_w : Writer S) (options : Options.t) (w w' : World S)
  (res : option (Logger.t S) * option error) :
  NewLogger sink_w options w = Returned res w' ->
  (Options.Release options = Release \/ Options.Release options = Dev
   \/ Options.Release options = Testing)
  /\ (exists n : Z,
         io_Write sink_w
           (StdLogger.line (StdLogger.New sink_w "" 55%Z) 3
              ("STARTUP: Logging has started. "
                 ++ Options.BinaryName options ++ " Version "
                 ++ Options.Version options)) w
         = Returned (n, snd res) w')
  /\ (fst res = None <-> snd res <> None).
Proof.
  intros E.
  assert (Hv : Options.Release options = Release
               \/ Options.Release options = Dev
               \/ Options.Release options = Testing).
  { destruct (N.eqb_spec (Options.Release options) Release); [auto |].
    destruct (N.eqb_spec (Options.Release options) Dev); [auto |].
    destruct (N.eqb_spec (Options.Release options) Testing); [auto |].
    exfalso. revert E. unfold NewLogger.
    rewrite (proj2 (N.eqb_neq _ _) n), (proj2 (N.eqb_neq _ _) n0),
      (proj2 (N.eqb_neq _ _) n1).
    cbn [orb]. rewrite bind_run. unfold ReleaseTypeM.String.
    rewrite (proj2 (N.eqb_neq _ _) n), (proj2 (N.eqb_neq _ _) n0),
      (proj2 (N.eqb_neq _ _) n1).
    destruct (Options.Release options =? ReleaseTypeError)%N; discriminate. }
  split; [exact Hv |].
  rewrite (NewLogger_run sink_w options w Hv) in E.
  destruct (io_Write sink_w _ w) as [[n [e|]] w1|p w1];
    inversion E; subst; simpl;
    (split; [exists n; reflexivity |]); split; congruence.
Qed.

End NewLoggerFacts.

(** ** Errorf and Errorln *)

(** X4. [Errorln] and [Errorf] make one write to the sink, whatever the debug
    flag and the release type: the header, ["[ERROR] "] and the message
    ([Errorf] adds a newline when the formatted message lacks one).  They
    return normally even when the sink reports a write error, and only
    the sink can make them panic; they do nothing else. *)
Theorem Error_methods_unconditional `{Platform} {S : Type}
  (l : Logger.t S) (format : string) (v : list value) (w : World S) :
  let out := StdLogger.out (Logger.log_Logger l) in
  let header := StdLogger.formatHeader (Logger.log_Logger l) 2 in
  let formatted := "[ERROR] " ++ Sprintf format v in
  match io_Write out
          (list_byte_of_string (header ++ "[ERROR] " ++ Sprintln v)) w with
  | Returned _ w1 => Logger.Errorln l v w = Returned tt w1
  | Panicked p w1 => Logger.Errorln l v w = Panicked p w1
  end
  /\ match io_Write out
             (list_byte_of_string
                (header ++ formatted
                   ++ (if StdLogger.lacksNewline formatted then nl else "")))
             w with
     | Returned _ w1 => Logger.Errorf l format v w = Returned tt w1
     | Panicked p w1 => Logger.Errorf l format v w = Panicked p w1
     end.
Proof.
  cbv zeta. unfold Logger.Errorln, Logger.Errorf, Logger.Output,
    StdLogger.Output.
  rewrite line_Sprintln. unfold StdLogger.line. rewrite !bind_run.
  split.
  - destruct (io_Write _ _ w) as [[? ?] ?|? ?]; reflexivity.
  - destruct (io_Write _ _ w) as [[? ?] ?|? ?]; reflexivity.
Qed.

(** ** The discard logger *)

(** X5. On [DiscardLogger], the [Debug] and [Error] methods and [Close] return
    and leave the state as it was ([Close] returns no error: the sink is
    not an [io.Closer]), for all arguments.  [Severe] panics like
    [Critical] does, with the ["Severe error: "] summary, and reports
    nothing on standard error. *)
Theorem DiscardLogger_methods `{Platform} {S : Type}
  (format : string) (v : list value) (w : World S) :
  Logger.Debug DiscardLogger v w = Returned tt w
  /\ Logger.Debugf DiscardLogger format v w = Returned tt w
  /\ Logger.Debugln DiscardLogger v w = Returned tt w
  /\ Logger.Errorf DiscardLogger format v w = Returned tt w
  /\ Logger.Errorln DiscardLogger v w = Returned tt w
  /\ Logger.Close DiscardLogger w = Returned None w
  /\ Logger.Severe DiscardLogger v w
     = Panicked
         ("Severe error: (discard v0, Release: testing) " ++ Sprintln v) w.
Proof.
  repeat split.
Qed.

(** ** closeableFile: the methods in full *)

Section CloseableFileMethods.
Context `{FileSystem}.

Import closeableFile.

(** [Write] on a state given field by field. *)
Lemma Write_normal_form (b : list byte) (errs : list StderrItem)
  (h : OSFile) (log : list FileCall) (c : bool) (o : Options.t) :
  let payload :=
    misusePayload o "cannot write to the file after it has been closed" in
  let errs' := if c && negb (Options.Release o =? Testing)%N
               then (errs ++ [StackTrace; StderrText payload])%list
               else errs in
  Write b (mkWorld errs (mk (osFile.mk h log) c o))
  = if c && Options.Debug o
    then Panicked payload (mkWorld errs' (mk (osFile.mk h log) c o))
    else Returned (fst (os_Write b h))
           (mkWorld errs'
              (mk (osFile.mk (snd (os_Write b h)) (log ++ [CallWrite b]))
                 c o)).
Proof.
  cbv zeta. unfold Write. cbn [sink closed staticOptions].
  rewrite bind_run. destruct c; cbn [andb].
  - rewrite Options_Critical_run.
    unfold misusePayload, Sprintln, joinSpace, render.
    rewrite !append_assoc.
    destruct (Options.Debug o), (Options.Release o =? Testing)%N;
      cbn [negb]; try reflexivity;
      unfold onFile, osFile.Write; cbn [sink File stderr closed staticOptions
        osFile.handle osFile.calls];
      destruct (os_Write b h); reflexivity.
  - unfold ret, onFile, osFile.Write.
    cbn [sink File stderr closed staticOptions osFile.handle osFile.calls].
    destruct (os_Write b h); reflexivity.
Qed.

(** [Close] on a state given field by field. *)
Lemma Close_normal_form (errs : list StderrItem)
  (h : OSFile) (log : list FileCall) (c : bool) (o : Options.t) :
  let payload := misusePayload o "cannot close the file; already closed" in
  let errs' := if c && negb (Options.Release o =? Testing)%N
               then (errs ++ [StackTrace; StderrText payload])%list
               else errs in
  Close (mkWorld errs (mk (osFile.mk h log) c o))
  = if c && Options.Debug o
    then Panicked payload (mkWorld errs' (mk (osFile.mk h log) c o))
    else match os_Sync h with
         | (Some e, h1) =>
             Returned (Some e)
               (mkWorld errs' (mk (osFile.mk h1 (log ++ [CallSync])) c o))
         | (None, h1) =>
             Returned (fst (os_Close h1))
               (mkWorld errs'
                  (mk (osFile.mk (snd (os_Close h1))
                         (log ++ [CallSync; CallClose]))
                     true o))
         end.
Proof.
  cbv zeta. unfold Close. cbn [sink closed staticOptions].
  rewrite bind_run. destruct c; cbn [andb].
  - rewrite Options_Critical_run.
    unfold misusePayload, Sprintln, joinSpace, render.
    rewrite !append_assoc.
    destruct (Options.Debug o), (Options.Release o =? Testing)%N;
      cbn [negb]; try reflexivity;
      unfold bind, ret, onFile, markClosed, osFile.Sync, osFile.Close;
      cbn [sink File stderr closed staticOptions osFile.handle osFile.calls];
      destruct (os_Sync h) as [[e|] h1]; try reflexivity;
      cbn [sink File stderr closed staticOptions osFile.handle osFile.calls];
      destruct (os_Close h1); cbn [fst snd]; rewrite <- app_assoc;
      reflexivity.
  - unfold bind, ret, onFile, markClosed, osFile.Sync, osFile.Close.
    cbn [sink File stderr closed staticOptions osFile.handle osFile.calls].
    destruct (os_Sync h) as [[e|] h1]; try reflexivity.
    cbn [sink File stderr closed staticOptions osFile.handle osFile.calls].
    destruct (os_Close h1); cbn [fst snd]; rewrite <- app_assoc.
    reflexivity.
Qed.

(** A state is its fields. *)
Lemma World_eta (w : World t) :
  w = mkWorld (stderr w)
        (mk (osFile.mk (osFile.handle (File (sink w)))
               (osFile.calls (File (sink w))))
            (closed (sink w)) (staticOptions (sink w))).
Proof. destruct w as [errs [[h log] c o]]. reflexivity. Qed.

(** X6. On a file that is not closed, [Write] calls the file's [Write] once
    and returns its count and error as they are; whatever the result and
    the options, it does not panic, reports nothing on standard error and
    leaves the [closed] flag false. *)
Theorem Write_before_close (b : list byte) (w : World t) :
  closed (sink w) = false ->
  let f := File (sink w) in
  Write b w
  = Returned (fst (os_Write b (osFile.handle f)))
      (mkWorld (stderr w)
         (mk (osFile.mk (snd (os_Write b (osFile.handle f)))
                (osFile.calls f ++ [CallWrite b]))
             false (staticOptions (sink w)))).
Proof.
  destruct w as [errs [[h log] c o]]. cbn [sink closed]. intros ->.
  cbv zeta. rewrite Write_normal_form. reflexivity.
Qed.

(** X7. On a file that is not closed and whose [Sync] succeeds, [Close] calls
    [Sync] and then the file's [Close], once each, and returns the result
    of the latter; the [closed] flag is true afterwards even when the
    file's [Close] returned an error.  Nothing is reported and there is
    no panic, whatever the options. *)
Theorem Close_before_close (w : World t) :
  closed (sink w) = false ->
  fst (os_Sync (osFile.handle (File (sink w)))) = None ->
  let f := File (sink w) in
  let h1 := snd (os_Sync (osFile.handle f)) in
  Close w
  = Returned (fst (os_Close h1))
      (mkWorld (stderr w)
         (mk (osFile.mk (snd (os_Close h1))
                (osFile.calls f ++ [CallSync; CallClose]))
             true (staticOptions (sink w)))).
Proof.
  destruct w as [errs [[h log] c o]].
  cbn [sink closed File osFile.handle osFile.calls staticOptions stderr].
  intros -> Hs. cbv zeta. rewrite Close_normal_form. cbn [andb].
  destruct (os_Sync h) as [[e|] h1]; [discriminate Hs | reflexivity].
Qed.


(** X9. The [closed] flag goes from false to true in one way only: a [Close]
    whose [Sync] succeeded.  No [Write], and no [Close] whose flush
    failed, sets it. *)
Theorem closed_set_only_by_synced_Close (w : World t) (op : Op) :
  closed (sink w) = false ->
  closed (sink (step w op)) = true ->
  op = OpClose /\ fst (os_Sync (osFile.handle (File (sink w)))) = None.
Proof.
  destruct w as [errs [[h log] c o]].
  cbn [sink closed File osFile.handle]. intros ->.
  destruct op as [b|]; cbn [step].
  - rewrite Write_normal_form. cbn. discriminate.
  - rewrite Close_normal_form. cbn [andb].
    destruct (os_Sync h) as [[e|] h1]; cbn; [discriminate | auto].
Qed.

Lemma step_keeps_staticOptions (w : World t) (op : Op) :
  staticOptions (sink (step w op)) = staticOptions (sink w).
Proof.
  destruct w as [errs [[h log] c o]].
  destruct op as [b|]; cbn [step].
  - rewrite Write_normal_form. destruct (c && Options.Debug o); reflexivity.
  - rewrite Close_normal_form. destruct (c && Options.Debug o);
      [reflexivity |].
    destruct (os_Sync h) as [[e|] h1]; reflexivity.
Qed.

(** The options a [closeableFile] was created with are the options it has
    after any sequence of [Write] and [Close] calls. *)
Lemma run_keeps_staticOptions (ops : list Op) (w : World t) :
  staticOptions (sink (run ops w)) = staticOptions (sink w).
Proof.
  unfold run. revert w.
  induction ops as [|op ops IH]; intros w; [reflexivity |].
  cbn [fold_left]. rewrite IH. apply step_keeps_staticOptions.
Qed.

Lemma step_keeps_flag_with_call (w : World t) (op : Op) :
  (closed (sink w) = true <-> In CallClose (osFile.calls (File (sink w)))) ->
  (closed (sink (step w op)) = true
   <-> In CallClose (osFile.calls (File (sink (step w op))))).
Proof.
  destruct w as [errs [[h log] c o]].
  cbn [sink closed File osFile.calls]. intros Inv.
  destruct op as [b|]; cbn [step].
  - rewrite Write_normal_form.
    destruct (c && Options.Debug o);
      cbn [final_state sink closed File osFile.calls]; [exact Inv |].
    rewrite in_app_iff. cbn [In].
    split; [intros E; left; apply Inv, E |].
    intros [E | [E | []]]; [apply Inv, E | discriminate E].
  - rewrite Close_normal_form.
    destruct (c && Options.Debug o);
      cbn [final_state sink closed File osFile.calls]; [exact Inv |].
    destruct (os_Sync h) as [[e|] h1];
      cbn [final_state sink closed File osFile.calls];
      rewrite in_app_iff; cbn [In].
    + split; [intros E; left; apply Inv, E |].
      intros [E | [E | []]]; [apply Inv, E | discriminate E].
    + split; [intros _; right; right; left; reflexivity | reflexivity].
Qed.

(** X10. Starting from the file as [NewFileLogger] wraps it, after any
    sequence of [Write] and [Close] calls the [closed] flag is true
    exactly when the file's own [Close] has been called. *)
Theorem closed_iff_File_Close_called
  (logFile : OSFile) (options : Options.t) (errs : list StderrItem)
  (ops : list Op) :
  let w := run ops (freshFile logFile options errs) in
  closed (sink w) = true <-> In CallClose (osFile.calls (File (sink w))).
Proof.
  cbv zeta.
  assert (G : forall w0 : World t,
             (closed (sink w0) = true
              <-> In CallClose (osFile.calls (File (sink w0)))) ->
             closed (sink (run ops w0)) = true
             <-> In CallClose (osFile.calls (File (sink (run ops w0))))).
  { unfold run. induction ops as [|op ops IH]; intros w0 Inv; [exact Inv |].
    cbn [fold_left]. apply IH. apply step_keeps_flag_with_call. exact Inv. }
  apply G. cbn. split; [discriminate | intros []].
Qed.

Lemma step_without_debug (w : World t) (op : Op) :
  Options.Debug (staticOptions (sink w)) = false ->
  match op with
  | OpWrite b => panics (Write b w)
  | OpClose => panics (Close w)
  end = false.
Proof.
  destruct w as [errs [[h log] c o]]. cbn [sink staticOptions]. intros Hd.
  destruct op as [b|].
  - rewrite Write_normal_form, Hd, andb_false_r. reflexivity.
  - rewrite Close_normal_form, Hd, andb_false_r.
    destruct (os_Sync h) as [[e|] h1]; reflexivity.
Qed.

(** X11. A [closeableFile] created with the debug flag unset never panics:
    after any sequence of calls, a [Write] or a [Close] returns, also on a
    closed file and whatever the file operations report. *)
Theorem no_panic_without_debug (ops : list Op) (b : list byte) (w : World t) :
  Options.Debug (staticOptions (sink w)) = false ->
  panics (Write b (run ops w)) = false
  /\ panics (Close (run ops w)) = false.
Proof.
  intros Hd.
  assert (Hd' : Options.Debug (staticOptions (sink (run ops w))) = false)
    by (rewrite run_keeps_staticOptions; exact Hd).
  split.
  - exact (step_without_debug (run ops w) (OpWrite b) Hd').
  - exact (step_without_debug (run ops w) OpClose Hd').
Qed.

Lemma step_keeps_stderr (w : World t) (op : Op) :
  closed (sink w) = false
  \/ Options.Release (staticOptions (sink w)) = Testing ->
  stderr (step w op) = stderr w.
Proof.
  destruct w as [errs [[h log] c o]].
  cbn [sink staticOptions closed stderr]. intros Hq.
  assert (Hn : c && negb (Options.Release o =? Testing)%N = false).
  { destruct Hq as [-> | ->]; [reflexivity | apply andb_false_r]. }
  destruct op as [b|]; cbn [step].
  - rewrite Write_normal_form, Hn.
    destruct (c && Options.Debug o); reflexivity.
  - rewrite Close_normal_form, Hn.
    destruct (c && Options.Debug o); [reflexivity |].
    destruct (os_Sync h) as [[e|] h1]; reflexivity.
Qed.

(** X12. A [closeableFile] created with release type [Testing] never writes to
    standard error: any sequence of [Write] and [Close] calls, misuse
    included, leaves the stream as it was. *)
Theorem testing_keeps_stderr (ops : list Op) (w : World t) :
  Options.Release (staticOptions (sink w)) = Testing ->
  stderr (run ops w) = stderr w.
Proof.
  unfold run. revert w.
  induction ops as [|op ops IH]; intros w Hr; [reflexivity |].
  cbn [fold_left]. rewrite IH.
  - apply step_keeps_stderr. right. exact Hr.
  - rewrite step_keeps_staticOptions. exact Hr.
Qed.

End CloseableFileMethods.

(** ** The file-backed logger *)

Section FileLoggerFacts.
Context `{Platform} `{FileSystem}.

(** [Output] of a file-backed logger when the file's options have the
    debug flag unset, or the file is not closed: one [Write] on the file,
    reported first if the file is closed. *)
Lemma fileLogger_Output (options : Options.t) (calldepth : Z) (s : string)
  (errs : list StderrItem) (h : OSFile) (log : list FileCall)
  (c : bool) (o : Options.t) :
  c && Options.Debug o = false ->
  let line := StdLogger.line (Logger.log_Logger (fileLogger options))
                calldepth s in
  let errs' :=
    if c && negb (Options.Release o =? Testing)%N
    then (errs
            ++ [StackTrace;
                StderrText
                  (misusePayload o
                     "cannot write to the file after it has been closed")])%list
    else errs in
  Logger.Output (fileLogger options) calldepth s
    (mkWorld errs (closeableFile.mk (osFile.mk h log) c o))
  = Returned (snd (fst (os_Write line h)))
      (mkWorld errs'
         (closeableFile.mk
            (osFile.mk (snd (os_Write line h)) (log ++ [CallWrite line]))
            c o)).
Proof.
  intros Hd. cbv zeta. unfold Logger.Output, StdLogger.Output.
  rewrite bind_run.
  cbn [fileLogger Logger.log_Logger StdLogger.out closeableFile.asWriter
       io_Write].
  rewrite Write_normal_form, Hd. reflexivity.
Qed.

(** [Logger.Close] of a file-backed logger on an open file, field by
    field. *)
Lemma fileLogger_Close_fields (options : Options.t)
  (errs : list StderrItem) (h : OSFile) (log : list FileCall)
  (o : Options.t) :
  let line :=
    list_byte_of_string
      (StdLogger.formatHeader (Logger.log_Logger (fileLogger options)) 2
         ++ "SHUTDOWN: Logging has terminated." ++ nl) in
  Logger.Close (fileLogger options)
    (mkWorld errs (closeableFile.mk (osFile.mk h log) false o))
  = match os_Sync (snd (os_Write line h)) with
    | (Some e, h1) =>
        Returned (Some e)
          (mkWorld errs
             (closeableFile.mk
                (osFile.mk h1 (log ++ [CallWrite line; CallSync])) false o))
    | (None, h1) =>
        Returned (fst (os_Close h1))
          (mkWorld errs
             (closeableFile.mk
                (osFile.mk (snd (os_Close h1))
                   (log ++ [CallWrite line; CallSync; CallClose]))
                true o))
    end.
Proof.
  cbv zeta. unfold Logger.Close. rewrite bind_run.
  rewrite fileLogger_Output by reflexivity.
  cbn [fileLogger Logger.staticW closeableFile.asWriter io_Closer andb].
  rewrite Close_normal_form. cbn [andb].
  unfold StdLogger.line. cbn [StdLogger.lacksNewline].
  destruct (os_Sync _) as [[e|] h1]; rewrite <- app_assoc; reflexivity.
Qed.

(** X13. [Logger.Close] on a file-backed logger whose file is not closed: the
    shutdown line is written to the file, then the file is flushed and
    closed.  The result is the flush error if the flush fails (the file
    then stays open and not closed), and the result of the file's
    [Close] otherwise; an error of the shutdown write is never returned.
    Nothing is reported on standard error. *)
Theorem file_logger_Close (options : Options.t) (w : World closeableFile.t) :
  closeableFile.closed (sink w) = false ->
  let f := closeableFile.File (sink w) in
  let o := closeableFile.staticOptions (sink w) in
  let line :=
    list_byte_of_string
      (StdLogger.formatHeader (Logger.log_Logger (fileLogger options)) 2
         ++ "SHUTDOWN: Logging has terminated." ++ nl) in
  let written := snd (os_Write line (osFile.handle f)) in
  Logger.Close (fileLogger options) w
  = match os_Sync written with
    | (Some e, h1) =>
        Returned (Some e)
          (mkWorld (stderr w)
             (closeableFile.mk
                (osFile.mk h1 (osFile.calls f ++ [CallWrite line; CallSync]))
                false o))
    | (None, h1) =>
        Returned (fst (os_Close h1))
          (mkWorld (stderr w)
             (closeableFile.mk
                (osFile.mk (snd (os_Close h1))
                   (osFile.calls f ++ [CallWrite line; CallSync; CallClose]))
                true o))
    end.
Proof.
  destruct w as [errs [[h log] c o]].
  cbn [sink closeableFile.closed closeableFile.File closeableFile.staticOptions
       osFile.handle osFile.calls stderr].
  intros ->. apply fileLogger_Close_fields.
Qed.

(** X14. [Logger.Close] on a file-backed logger whose file is already closed,
    with the debug flag set in the file's options: it panics on the
    shutdown write, with the write-after-close payload, before any call
    reaches the file; the file's [Close] is not tried again. *)
Theorem file_logger_Close_twice (options : Options.t)
  (w : World closeableFile.t) :
  closeableFile.closed (sink w) = true ->
  Options.Debug (closeableFile.staticOptions (sink w)) = true ->
  let o := closeableFile.staticOptions (sink w) in
  let payload :=
    misusePayload o "cannot write to the file after it has been closed" in
  Logger.Close (fileLogger options) w
  = Panicked payload
      (mkWorld
         (if (Options.Release o =? Testing)%N then stderr w
          else (stderr w ++ [StackTrace; StderrText payload])%list)
         (sink w)).
Proof.
  destruct w as [errs [[h log] c o]].
  cbn [sink closeableFile.closed closeableFile.staticOptions stderr].
  intros -> Hd. cbv zeta.
  unfold Logger.Close, Logger.Output, StdLogger.Output. rewrite 2 bind_run.
  cbn [fileLogger Logger.log_Logger StdLogger.out closeableFile.asWriter
       io_Write].
  rewrite Write_normal_form, Hd. cbn [andb].
  destruct (Options.Release o =? Testing)%N; reflexivity.
Qed.

(** X15. A file-backed logger created with the debug flag unset never panics:
    every method returns, on an open file and on a closed one, whatever
    the file operations report. *)
Theorem file_logger_no_panic_without_debug (options : Options.t)
  (format : string) (v : list value) (w : World closeableFile.t) :
  Options.Debug options = false ->
  closeableFile.staticOptions (sink w) = options ->
  let l := fileLogger options in
  panics (Logger.Debug l v w) = false
  /\ panics (Logger.Debugf l format v w) = false
  /\ panics (Logger.Debugln l v w) = false
  /\ panics (Logger.Errorf l format v w) = false
  /\ panics (Logger.Errorln l v w) = false
  /\ panics (Logger.Severe l v w) = false
  /\ panics (Logger.Critical l v w) = false
  /\ panics (Logger.Close l w) = false.
Proof.
  destruct w as [errs [[h log] c o]].
  cbn [sink closeableFile.staticOptions]. intros Hd ->. cbv zeta.
  assert (Hc : c && Options.Debug options = false)
    by (rewrite Hd; apply andb_false_r).
  unfold Logger.Debug, Logger.Debugf, Logger.Debugln, Logger.Errorf,
    Logger.Errorln, Logger.Severe, Logger.Critical, Logger.Close.
  cbn [fileLogger Logger.staticOptions]. rewrite Hd.
  fold (fileLogger options).
  repeat split; try reflexivity;
    rewrite bind_run, (fileLogger_Output options _ _ _ _ _ _ _ Hc);
    try reflexivity.
  - destruct (Options.Release options =? Testing)%N; reflexivity.
  - rewrite Options_Critical_run, Hd. reflexivity.
  - cbn [fileLogger Logger.staticW closeableFile.asWriter io_Closer].
    rewrite Close_normal_form, Hc.
    destruct (os_Sync _) as [[e|] h1]; reflexivity.
Qed.

End FileLoggerFacts.

(** ** NewFileLogger *)

Section NewFileLoggerFacts.
Context `{Platform} `{FileSystem}.

(** With an invalid release type [NewLogger] panics in the state it was
    called in. *)
Lemma NewLogger_invalid_run {S : Type}
  (sink_w : Writer S) (options : Options.t) (w : World S) :
  ~ (Options.Release options = Release \/ Options.Release options = Dev
     \/ Options.Release options = Testing) ->
  exists payload : string, NewLogger sink_w options w = Panicked payload w.
Proof.
  intros Hn. unfold NewLogger, ReleaseTypeM.String.
  destruct (N.eqb_spec (Options.Release options) Release); [tauto |].
  destruct (N.eqb_spec (Options.Release options) Dev); [tauto |].
  destruct (N.eqb_spec (Options.Release options) Testing); [tauto |].
  cbn [orb]. rewrite bind_run.
  destruct (Options.Release options =? ReleaseTypeError)%N;
    eexists; reflexivity.
Qed.

(** X16. [NewFileLogger] returns the error of [os.OpenFile] when opening
    failed.  Otherwise, however [NewLogger] ends (a panic on an invalid
    release type, an error from the start-up write, or success), the file
    has only been written to: it has not been flushed or closed, its
    [closed] flag is false, and standard error is untouched.  When a
    logger is returned there is no error, and the logger writes to the
    wrapped file with the options as given; when none is returned, the
    file is left open. *)
Theorem NewFileLogger_leaves_file_open
  (open_result : OSFile * option error) (options : Options.t)
  (errs : list StderrItem) :
  match NewFileLogger open_result options errs with
  | OpenFailed e => snd open_result = Some e
  | Opened r =>
      snd open_result = None
      /\ closeableFile.closed (sink (final_state r)) = false
      /\ (forall call : FileCall,
             In call (osFile.calls (closeableFile.File (sink (final_state r)))) ->
             exists b, call = CallWrite b)
      /\ stderr (final_state r) = errs
      /\ closeableFile.staticOptions (sink (final_state r)) = options
      /\ (forall l e w',
             r = Returned (l, e) w' ->
             (l = Some (fileLogger options) /\ e = None)
             \/ (l = None /\ e <> None))
  end.
Proof.
  destruct open_result as [logFile [e|]]; cbn [NewFileLogger snd];
    [reflexivity |].
  split; [reflexivity |]. unfold NewFileLogger_opened.
  destruct (N.eq_dec (Options.Release options) Release) as [E1|E1];
    [| destruct (N.eq_dec (Options.Release options) Dev) as [E2|E2];
       [| destruct (N.eq_dec (Options.Release options) Testing) as [E3|E3]]].
  4: { destruct (NewLogger_invalid_run closeableFile.asWriter options
                   (mkWorld errs
                      (closeableFile.mk (osFile.mk logFile []) false options)))
         as [p ->]; [tauto |].
       cbn. repeat split; try tauto. intros l e w' E. discriminate E. }
  all: rewrite NewLogger_run by tauto;
    cbn [closeableFile.asWriter io_Write];
    rewrite Write_normal_form; cbn [andb];
    destruct (os_Write _ logFile) as [[n [e|]] h1]; cbn;
    (repeat split; try tauto;
     [ intros call [<- | []]; eexists; reflexivity
     | intros l e' w' E; inversion E; subst;
       first [ left; split; reflexivity | right; split; congruence ] ]).
Qed.

End NewFileLoggerFacts.

(** ** A whole life of a file-backed logger *)

Section Lifecycle.
Context `{Platform} `{FileSystem}.


End Lifecycle.

(** ** The further properties on concrete inputs *)

Lemma NewLogger_startup_witness :
  @NewLogger fixedPlatform _ Buffer (exampleOptions false Dev) emptyBuffer
  = Returned
      (Some (Logger.mk (StdLogger.New Buffer "" 55%Z) Buffer
               (exampleOptions false Dev)), None)
      (mkWorld []
         (list_byte_of_string
            ("2009/11/10 23:00:00.000000 log.go:128: "
               ++ "STARTUP: Logging has started. test Version 0.0.1" ++ nl))).
Proof.
  exact (@NewLogger_startup fixedPlatform _ Buffer (exampleOptions false Dev)
           emptyBuffer (or_intror (or_introl eq_refl))).
Defined.

Lemma NewLogger_returns_only_sink_errors_witness :
  Options.Release (exampleOptions true Testing) = Release
  \/ Options.Release (exampleOptions true Testing) = Dev
  \/ Options.Release (exampleOptions true Testing) = Testing.
Proof.
  apply (@NewLogger_returns_only_sink_errors fixedPlatform _ Buffer
           (exampleOptions true Testing) emptyBuffer
           (mkWorld []
              (list_byte_of_string
                 ("2009/11/10 23:00:00.000000 log.go:128: "
                    ++ "STARTUP: Logging has started. test Version 0.0.1"
                    ++ nl)))
           (Some (bufferLogger true), None)).
  reflexivity.
Defined.

Lemma Write_before_close_witness :
  closeableFile.Write ["h"%byte; "i"%byte] (openFile true Dev)
  = Returned (2%Z, None)
      (mkWorld []
         (closeableFile.mk
            (osFile.mk (mkMemFile ["h"%byte; "i"%byte] true None)
               [CallWrite ["h"%byte; "i"%byte]])
            false (exampleOptions true Dev))).
Proof.
  exact (Write_before_close ["h"%byte; "i"%byte] (openFile true Dev) eq_refl).
Defined.

Lemma Close_before_close_witness :
  closeableFile.Close (openFile true Dev)
  = Returned None
      (mkWorld []
         (closeableFile.mk
            (osFile.mk (mkMemFile [] false None) [CallSync; CallClose])
            true (exampleOptions true Dev))).
Proof.
  exact (Close_before_close (openFile true Dev) eq_refl eq_refl).
Defined.


Lemma closed_set_only_by_synced_Close_witness :
  closeableFile.OpClose = closeableFile.OpClose
  /\ fst (os_Sync (osFile.handle (closeableFile.File (sink (openFile true Dev)))))
     = None.
Proof.
  exact (closed_set_only_by_synced_Close (openFile true Dev)
           closeableFile.OpClose eq_refl eq_refl).
Defined.

Lemma no_panic_without_debug_witness :
  panics (closeableFile.Write ["x"%byte]
            (closeableFile.run
               [closeableFile.OpClose; closeableFile.OpClose]
               (openFile false Dev))) = false
  /\ panics (closeableFile.Close
               (closeableFile.run
                  [closeableFile.OpClose; closeableFile.OpClose]
                  (openFile false Dev))) = false.
Proof.
  exact (no_panic_without_debug
           [closeableFile.OpClose; closeableFile.OpClose] ["x"%byte]
           (openFile false Dev) eq_refl).
Defined.

Lemma testing_keeps_stderr_witness :
  stderr (closeableFile.run
            [closeableFile.OpClose; closeableFile.OpWrite ["x"%byte];
             closeableFile.OpClose]
            (openFile true Testing)) = [].
Proof.
  exact (testing_keeps_stderr
           [closeableFile.OpClose; closeableFile.OpWrite ["x"%byte];
            closeableFile.OpClose]
           (openFile true Testing) eq_refl).
Defined.

Lemma file_logger_Close_witness :
  @Logger.Close fixedPlatform _ (fileLogger (exampleOptions true Dev))
    (openFile true Dev)
  = Returned None
      (mkWorld []
         (closeableFile.mk
            (osFile.mk
               (mkMemFile
                  (list_byte_of_string
                     ("2009/11/10 23:00:00.000000 log.go:128: "
                        ++ "SHUTDOWN: Logging has terminated." ++ nl))
                  false None)
               [CallWrite
                  (list_byte_of_string
                     ("2009/11/10 23:00:00.000000 log.go:128: "
                        ++ "SHUTDOWN: Logging has terminated." ++ nl));
                CallSync; CallClose])
            true (exampleOptions true Dev))).
Proof.
  exact (@file_logger_Close fixedPlatform memFS (exampleOptions true Dev)
           (openFile true Dev) eq_refl).
Defined.

Lemma file_logger_Close_twice_witness :
  @Logger.Close fixedPlatform _ (fileLogger (exampleOptions true Testing))
    (closedFile true Testing)
  = Panicked
      (misusePayload (exampleOptions true Testing)
         "cannot write to the file after it has been closed")
      (closedFile true Testing).
Proof.
  exact (@file_logger_Close_twice fixedPlatform memFS
           (exampleOptions true Testing) (closedFile true Testing)
           eq_refl eq_refl).
Defined.

Lemma file_logger_no_panic_without_debug_witness :
  panics (@Logger.Critical fixedPlatform _
            (fileLogger (exampleOptions false Dev))
            [VString "a critical message"] (closedFile false Dev)) = false
  /\ panics (@Logger.Close fixedPlatform _
               (fileLogger (exampleOptions false Dev))
               (closedFile false Dev)) = false.
Proof.
  pose proof (@file_logger_no_panic_without_debug fixedPlatform memFS
                (exampleOptions false Dev) "" [VString "a critical message"]
                (closedFile false Dev) eq_refl eq_refl)
    as (_ & _ & _ & _ & _ & _ & Hcrit & Hclose).
  split; [exact Hcrit | exact Hclose].
Defined.

